(** * Galaxy client: the HDCA editing list item and the karma configuration

    A shallow embedding of
    - [client/galaxy/scripts/mvc/history/hdca-li-edit.js], the view class
      [HDCAListItemEdit], and
    - [client/karma.config.js], the test-runner configuration,
    together with the properties the specification states about them. *)

From stdpp Require Import gmap strings pretty list.


(** ** JavaScript values

    The primitive values a Backbone model attribute or an environment
    variable can hold.  The numbers are the safe integers, those of
    magnitude below 2^53 ([Number.isSafeInteger]): a double holds each of
    them exactly and JavaScript prints them in plain decimal, digit for
    digit. *)

Definition is_safe_integer (n : Z) : bool := (Z.abs n <? 2 ^ 53)%Z.

Record number : Type := mkNumber {
  number_value : Z;
  number_safe : Is_true (is_safe_integer number_value)
}.

#[global] Instance number_eq_dec : EqDecision number.
Proof.
  intros [n Hn] [n' Hn']. destruct (decide (n = n')) as [-> | Hne].
  - left. f_equal. apply proof_irrel.
  - right. intros [= Heq]. contradiction.
Defined.

Inductive value : Type :=
  | VUndefined
  | VNull
  | VBool (b : bool)
  | VNum (n : number)
  | VStr (s : string).

#[global] Instance value_eq_dec : EqDecision value.
Proof. solve_decision. Defined.

(** ToBoolean: what [c ? a : b] and [a || b] test. *)
Definition ToBoolean (v : value) : bool :=
  match v with
  | VUndefined | VNull => false
  | VBool b => b
  | VNum n => negb (Z.eqb (number_value n) 0)
  | VStr s => negb (String.eqb s "")
  end.

(** ToString: what a template literal applies to a substitution. *)
Definition ToString (v : value) : string :=
  match v with
  | VUndefined => "undefined"
  | VNull => "null"
  | VBool true => "true"
  | VBool false => "false"
  | VNum n => pretty (number_value n)
  | VStr s => s
  end.

(** [a === b], the comparison a [switch] makes against each [case]. *)
Definition strict_equals (a b : value) : bool := bool_decide (a = b).

(** [a || b] *)
Definition js_or (a b : value) : value := if ToBoolean a then a else b.

(** [xs.concat(ys)] for an array argument: a new array, [xs] then [ys]. *)
Definition concat {A : Type} (xs ys : list A) : list A := xs ++ ys.

(** ** Exceptions and completions *)

Inductive exn : Type :=
  | TypeError (msg : string).

Inductive completion (A : Type) : Type :=
  | Normal (a : A)
  | Throw (e : exn).
Arguments Normal {A} a.
Arguments Throw {A} e.

(** ** The view object

    [this.model] is a Backbone model (its attribute table) or is missing;
    [logged] records, oldest first, the messages handed to [this.log]. *)

Abbreviation Model := (gmap string value).

Record View : Type := mkView {
  model : option Model;
  logged : list string
}.

(** Methods of the view run against [this] and either complete normally
    or throw; they may change [this] on the way. *)
Definition M (A : Type) : Type := View -> View * completion A.

Definition ret {A : Type} (a : A) : M A := fun this => (this, Normal a).

Definition throw {A : Type} (e : exn) : M A := fun this => (this, Throw e).

Definition bind {A B : Type} (c : M A) (k : A -> M B) : M B :=
  fun this =>
    match c this with
    | (this', Normal a) => k a this'
    | (this', Throw e) => (this', Throw e)
    end.

Notation "'let!' x ':=' c 'in' k" := (bind c (fun x => k))
  (at level 10, x name, c at level 100, k at level 200).

(** The outcome and the final state of a method call. *)
Definition outcome {A : Type} (c : M A) (this : View) : completion A := snd (c this).
Definition after {A : Type} (c : M A) (this : View) : View := fst (c this).

(** The message of the engine's own TypeError for a property read on a
    missing object; its wording is the engine's. *)
Definition no_model_message : string := "this.model is undefined".

(** [this] *)
Definition this_view : M View := fun this => (this, Normal this).

(** [this.model] *)
Definition this_model : M (option Model) := fun this => (this, Normal (model this)).

(** [this.model.get(attr)]: Backbone's [get] reads the attribute table and
    yields [undefined] for an attribute that is not there. *)
Definition get (m : Model) (attr : string) : value := default VUndefined (m !! attr).

Definition this_model_get (attr : string) : M value :=
  let! om := this_model in
  match om with
  | Some m => ret (get m attr)
  | None => throw (TypeError no_model_message)
  end.

(** [this.log(msg)] *)
Definition log (msg : string) : M unit :=
  fun this => (mkView (model this) (logged this ++ [msg]), Normal tt).

(** ** mvc/collection/collection-view-edit: the editable panel classes *)

Module DC_VIEW_EDIT.
Inductive PanelClass : Type :=
  | ListCollectionViewEdit
  | PairCollectionViewEdit
  | ListOfPairsCollectionViewEdit
  | ListOfListsCollectionViewEdit.

#[global] Instance PanelClass_eq_dec : EqDecision PanelClass.
Proof. solve_decision. Defined.
End DC_VIEW_EDIT.

(** ** ui/fa-icon-button: the options object of [faIconButton] *)

(** The one click handler this file builds.  It is an arrow function, so
    closed over [this], the view that rendered the button: send [mouseout]
    to that view's button, then call [delete] on that view's model. *)
Inductive ClickHandler : Type :=
  | MouseoutThenModelDelete (this : View).

Record ButtonOptions : Type := mkButtonOptions {
  title : string;
  classes : string;
  faIcon : string;
  disabled : value;
  onclick : ClickHandler
}.

(** ** karma.config.js *)

(** An element of karma's [files]: a pattern object or a bare pattern. *)
Record FilePattern : Type := mkFilePattern {
  pattern : string;
  watched : bool
}.

Inductive FileEntry : Type :=
  | PatternObject (p : FilePattern)
  | PatternString (s : string).

Definition entry_pattern (e : FileEntry) : string :=
  match e with
  | PatternObject p => pattern p
  | PatternString s => s
  end.

(** The [watched] property of an element; a bare pattern has none. *)
Definition entry_watched (e : FileEntry) : option bool :=
  match e with
  | PatternObject p => Some (watched p)
  | PatternString _ => None
  end.

(** [process.env]: the variables that are set, each with a string value. *)
Abbreviation Env := (gmap string string).

(** [process.env.NAME] *)
Definition process_env (env : Env) (name : string) : value :=
  match env !! name with
  | Some s => VStr s
  | None => VUndefined
  end.

(** Single pack mode runs whole test suite much more quickly - but requires
    running the whole test suite so it would be slower for one-off tests. *)
Definition single_pack_mode (env : Env) : value :=
  js_or (process_env env "GALAXY_TEST_AS_SINGLE_PACK") (VBool false).

Definition TESTS_SEPARATE_PACKS : list FileEntry := [
  PatternObject {| pattern := "galaxy/scripts/qunit/tests/list-of-pairs-collection-creator.js"; watched := false |};
  PatternObject {| pattern := "galaxy/scripts/qunit/tests/galaxy-app-base.js"; watched := false |};
  PatternObject {| pattern := "galaxy/scripts/qunit/tests/graph.js"; watched := false |};
  PatternObject {| pattern := "galaxy/scripts/qunit/tests/hda-base.js"; watched := false |};
  PatternObject {| pattern := "galaxy/scripts/qunit/tests/history_contents_model_tests.js"; watched := false |};
  PatternObject {| pattern := "galaxy/scripts/qunit/tests/job-dag.js"; watched := false |};
  PatternObject {| pattern := "galaxy/scripts/qunit/tests/metrics-logger.js"; watched := false |};
  PatternObject {| pattern := "galaxy/scripts/qunit/tests/popover_tests.js"; watched := false |};
  PatternObject {| pattern := "galaxy/scripts/qunit/tests/utils_test.js"; watched := false |};
  PatternObject {| pattern := "galaxy/scripts/qunit/tests/page_tests.js"; watched := false |};
  PatternObject {| pattern := "galaxy/scripts/qunit/tests/workflow_editor_tests.js"; watched := false |}
].

Definition TESTS_AS_SINGLE_PACK : list FileEntry := [
  PatternObject {| pattern := "galaxy/scripts/qunit/test.js"; watched := false |}
].

Record WebpackMiddleware : Type := mkWebpackMiddleware {
  noInfo : bool
}.

Section KarmaConf.

(** What [require('./webpack.config')] gives, and karma's [config]. *)
Variable Plugin : Type.
Variable Entry : Type.
Variable Config : Type.

Inductive WebpackEntry : Type :=
  | RequiredEntry (e : Entry)
  | NoEntries.              (* function() { return {}; } *)

Record WebpackConfig : Type := mkWebpackConfig {
  wp_entry : WebpackEntry;
  wp_plugins : list Plugin
}.

(** The object handed to [config.set]. *)
Record KarmaSettings : Type := mkKarmaSettings {
  basepath : string;
  files : list FileEntry;
  plugins : list string;
  polyfill : list string;
  preprocessors : gmap string (list string);
  frameworks : list string;
  webpack : WebpackConfig;
  webpackMiddleware : WebpackMiddleware
}.

Variable config_set : KarmaSettings -> Config -> Config.

(** [plugins.splice(0, 1)] drops the first plugin; [entry] is replaced:
    no Galaxy bundles are built, the tests get bundles of their own. *)
Definition webpackConfig (required : WebpackConfig) : WebpackConfig :=
  {| wp_entry := NoEntries; wp_plugins := drop 1 (wp_plugins required) |}.

Definition settings (env : Env) (required : WebpackConfig) : KarmaSettings :=
  {| basepath := ".";
     files := concat
       (if ToBoolean (single_pack_mode env)
        then TESTS_AS_SINGLE_PACK
        else TESTS_SEPARATE_PACKS)
       [ PatternString "galaxy/scripts/qunit/assets/*.css" ];
     plugins := [ "karma-webpack"; "karma-qunit"; "karma-polyfill";
                  "karma-phantomjs-launcher" ];
     polyfill := [ "Object.assign" ];
     preprocessors := {[ "galaxy/scripts/qunit/**/*.js" := [ "webpack" ] ]};
     frameworks := [ "polyfill"; "qunit" ];
     webpack := webpackConfig required;
     webpackMiddleware := {| noInfo := false |} |}.

Definition module_exports (env : Env) (required : WebpackConfig)
    (config : Config) : Config :=
  config_set (settings env required) config.

End KarmaConf.

Arguments RequiredEntry {Entry} e.
Arguments NoEntries {Entry}.
Arguments mkWebpackConfig {Plugin Entry} wp_entry wp_plugins.
Arguments wp_entry {Plugin Entry} w.
Arguments wp_plugins {Plugin Entry} w.
Arguments files {Plugin Entry} k.
Arguments webpack {Plugin Entry} k.
Arguments webpackConfig {Plugin Entry} required.
Arguments settings {Plugin Entry} env required.
Arguments module_exports {Plugin Entry Config} config_set env required config.

(** ** The words of the specification *)

(** The directory of the unit tests, and the file names the specification
    lists as active and as commented out. *)
Definition tests_dir : string := "galaxy/scripts/qunit/tests/".

Definition active_tests : list string := [
  "list-of-pairs-collection-creator.js"; "galaxy-app-base.js"; "graph.js";
  "hda-base.js"; "history_contents_model_tests.js"; "job-dag.js";
  "metrics-logger.js"; "popover_tests.js"; "utils_test.js"; "page_tests.js";
  "workflow_editor_tests.js"
].

Definition commented_out_tests : list string := [
  "ui_tests.js"; "modal_tests.js"; "upload_dialog_tests.js"; "form_tests.js";
  "masthead_tests.js"
].

(** [ends_with suffix s]: [s] ends in [suffix]. *)
Definition ends_with (suffix s : string) : bool :=
  String.eqb
    (String.substring (String.length s - String.length suffix) (String.length suffix) s)
    suffix
  && (String.length suffix <=? String.length s)%nat.

(** The four known collection types, each with its editable panel class. *)
Definition known_panel_classes : list (string * DC_VIEW_EDIT.PanelClass) := [
  ("list", DC_VIEW_EDIT.ListCollectionViewEdit);
  ("paired", DC_VIEW_EDIT.PairCollectionViewEdit);
  ("list:paired", DC_VIEW_EDIT.ListOfPairsCollectionViewEdit);
  ("list:list", DC_VIEW_EDIT.ListOfListsCollectionViewEdit)
].


(** ** Sample models and views *)

Definition a_list_of_pairs : Model :=
  {[ "collection_type" := VStr "list:paired"; "deleted" := VBool false ]}.

Definition a_deleted_pair : Model :=
  {[ "collection_type" := VStr "paired"; "deleted" := VBool true ]}.

Definition a_live_pair : Model :=
  {[ "collection_type" := VStr "paired"; "deleted" := VBool false;
     "name" := VStr "reads" ]}.


Definition view_of (m : Model) : View := mkView (Some m) [].

Definition view_without_model : View := mkView None [].

(** A base class with two buttons of its own, buttons that are their
    options, and a localisation with no translations. *)
Definition two_actions : list ButtonOptions := [
  {| title := "View details"; classes := "display-btn"; faIcon := "fa-eye";
     disabled := VBool false;
     onclick := MouseoutThenModelDelete (view_of a_live_pair) |};
  {| title := "Edit attributes"; classes := "edit-btn"; faIcon := "fa-pencil";
     disabled := VBool false;
     onclick := MouseoutThenModelDelete (view_of a_live_pair) |}
].

(** A model with neither collection_type nor deleted. *)
Definition a_bare_model : Model := {[ "name" := VStr "reads" ]}.

(** The delete button of a collection that is not deleted, untranslated,
    as the view renders it once its name is in the log. *)
Definition a_delete_button : ButtonOptions :=
  {| title := "Delete"; classes := "delete-btn"; faIcon := "fa-times";
     disabled := VBool false;
     onclick := MouseoutThenModelDelete
       (mkView (Some a_live_pair)
               ["HDCAListItemEdit(HDCA(reads))._renderPrimaryActions"]) |}.

(** A base method that fails, and one that returns its two buttons but
    leaves the view without its model. *)
Definition a_failing_base : M (list ButtonOptions) :=
  throw (TypeError "base failed").

Definition a_base_dropping_the_model : M (list ButtonOptions) :=
  fun this => (mkView None (logged this), Normal two_actions).

(** Two environments in single pack mode, and one that is not. *)
Definition env_single_1 : Env :=
  {[ "GALAXY_TEST_AS_SINGLE_PACK" := "1"; "HOME" := "/home/galaxy" ]}.

Definition env_single_false : Env :=
  {[ "GALAXY_TEST_AS_SINGLE_PACK" := "false" ]}.

Definition a_webpack_config : WebpackConfig string string :=
  mkWebpackConfig (RequiredEntry "galaxy.js")
    [ "CommonsChunkPlugin"; "ProvidePlugin" ].

(** ** HDCAListItemEdit *)

Section HDCAListItemEdit.

(** Imported or inherited, and defined outside this file. *)
Variable _l : string -> string.                   (* utils/localization *)
Variable Button : Type.
Variable faIconButton : ButtonOptions -> Button.  (* ui/fa-icon-button *)
Variable Model_toString : Model -> string.        (* the model's toString *)
Variable _super_renderPrimaryActions : M (list Button).

(** Override to return editable versions of the collection panels *)
Definition _getFoldoutPanelClass : M DC_VIEW_EDIT.PanelClass :=
  let! collectionType := this_model_get "collection_type" in
  if strict_equals collectionType (VStr "list") then
    ret DC_VIEW_EDIT.ListCollectionViewEdit
  else if strict_equals collectionType (VStr "paired") then
    ret DC_VIEW_EDIT.PairCollectionViewEdit
  else if strict_equals collectionType (VStr "list:paired") then
    ret DC_VIEW_EDIT.ListOfPairsCollectionViewEdit
  else if strict_equals collectionType (VStr "list:list") then
    ret DC_VIEW_EDIT.ListOfListsCollectionViewEdit
  else
    throw (TypeError ("Unknown collection_type: " +:+ ToString collectionType)).

(** Render icon-button to delete this collection. *)
Definition _renderDeleteButton : M Button :=
  let! deleted := this_model_get "deleted" in
  let! this := this_view in
  ret (faIconButton {|
    title := if ToBoolean deleted
             then _l "Dataset collection is already deleted"
             else _l "Delete";
    classes := "delete-btn";
    faIcon := "fa-times";
    disabled := deleted;
    onclick := MouseoutThenModelDelete this
  |}).

(** string rep *)
Definition toString : M string :=
  let! om := this_model in
  let modelString :=
    match om with
    | Some m => Model_toString m
    | None => "(no model)"
    end in
  ret ("HDCAListItemEdit(" +:+ modelString +:+ ")").

(** In this override, add the delete button. *)
Definition _renderPrimaryActions : M (list Button) :=
  let! this_string := toString in
  let! _ := log (this_string +:+ "._renderPrimaryActions") in
  let! actions := _super_renderPrimaryActions in
  let! button := _renderDeleteButton in
  ret (concat actions [button]).

(** *** Running the methods *)

Lemma this_model_get_run (this : View) (m : Model) (attr : string) :
  model this = Some m ->
  this_model_get attr this = (this, Normal (get m attr)).
Proof. intros Hm. unfold this_model_get, this_model, bind, ret. now rewrite Hm. Qed.

Lemma this_model_get_no_model (this : View) (attr : string) :
  model this = None ->
  this_model_get attr this = (this, Throw (TypeError no_model_message)).
Proof. intros Hm. unfold this_model_get, this_model, bind, throw. now rewrite Hm. Qed.

Lemma strict_equals_true (a b : value) : strict_equals a b = true <-> a = b.
Proof. unfold strict_equals. apply bool_decide_eq_true. Qed.

Lemma strict_equals_false (a b : value) : strict_equals a b = false <-> a <> b.
Proof. unfold strict_equals. apply bool_decide_eq_false. Qed.


(** A known value selects its [case]. *)
Lemma getFoldoutPanelClass_returns
    (this : View) (m : Model) (collection_type : string)
    (panel : DC_VIEW_EDIT.PanelClass) :
  model this = Some m ->
  get m "collection_type" = VStr collection_type ->
  (collection_type, panel) ∈ known_panel_classes ->
  _getFoldoutPanelClass this = (this, Normal panel).
Proof.
  intros Hm Hct Hin. unfold _getFoldoutPanelClass, bind.
  rewrite (this_model_get_run _ _ _ Hm), Hct.
  unfold known_panel_classes in Hin.
  repeat (apply elem_of_cons in Hin; destruct Hin as [Heq | Hin];
          [ injection Heq as -> ->; reflexivity | ]).
  now apply elem_of_nil in Hin.
Qed.

(** Without a model the read of [this.model.get] already throws. *)
Lemma getFoldoutPanelClass_no_model (this : View) :
  model this = None ->
  _getFoldoutPanelClass this = (this, Throw (TypeError no_model_message)).
Proof.
  intros Hm. unfold _getFoldoutPanelClass, bind.
  now rewrite (this_model_get_no_model _ _ Hm).
Qed.

Lemma renderDeleteButton_run (this : View) (m : Model) :
  model this = Some m ->
  _renderDeleteButton this =
    (this, Normal (faIconButton {|
       title := if ToBoolean (get m "deleted")
                then _l "Dataset collection is already deleted"
                else _l "Delete";
       classes := "delete-btn";
       faIcon := "fa-times";
       disabled := get m "deleted";
       onclick := MouseoutThenModelDelete this |})).
Proof.
  intros Hm. unfold _renderDeleteButton, bind.
  now rewrite (this_model_get_run _ _ _ Hm).
Qed.

Lemma renderDeleteButton_no_model (this : View) :
  model this = None ->
  _renderDeleteButton this = (this, Throw (TypeError no_model_message)).
Proof.
  intros Hm. unfold _renderDeleteButton, bind.
  now rewrite (this_model_get_no_model _ _ Hm).
Qed.

(** The override is the log of its name followed by the base method and
    the button. *)
Lemma renderPrimaryActions_after_log (this : View) :
  _renderPrimaryActions this =
    (let! actions := _super_renderPrimaryActions in
     let! button := _renderDeleteButton in
     ret (concat actions [button]))
      (after (let! this_string := toString in
              log (this_string +:+ "._renderPrimaryActions")) this).
Proof.
  unfold _renderPrimaryActions, after, toString, this_model, bind, ret, log.
  reflexivity.
Qed.

(** *** Properties *)

(** C1. For a model whose collection_type is one of the four known
    values, [_getFoldoutPanelClass] returns the editable panel class that
    goes with it: ListCollectionViewEdit for "list",
    PairCollectionViewEdit for "paired", ListOfPairsCollectionViewEdit
    for "list:paired" and ListOfListsCollectionViewEdit for
    "list:list". *)
Theorem C1_getFoldoutPanelClass_known
    (this : View) (m : Model) (collection_type : string)
    (panel : DC_VIEW_EDIT.PanelClass) :
  model this = Some m ->
  get m "collection_type" = VStr collection_type ->
  (collection_type, panel) ∈ known_panel_classes ->
  outcome _getFoldoutPanelClass this = Normal panel.
Proof.
  intros Hm Hct Hin. unfold outcome.
  now rewrite (getFoldoutPanelClass_returns _ _ _ _ Hm Hct Hin).
Qed.


Ltac switch_cases :=
  unfold ret, throw;
  repeat match goal with
  | |- context [strict_equals ?a ?b] => destruct (strict_equals a b)
  end.

(** C3. The result of [_getFoldoutPanelClass] depends only on the
    model's collection_type: two views whose models carry equal
    collection_type values get the same outcome, the same panel class or
    the same thrown error, whatever their other attributes (deleted
    among them) are. *)
Theorem C3_getFoldoutPanelClass_depends_on_collection_type
    (this1 this2 : View) (m1 m2 : Model) :
  model this1 = Some m1 ->
  model this2 = Some m2 ->
  get m1 "collection_type" = get m2 "collection_type" ->
  outcome _getFoldoutPanelClass this1 = outcome _getFoldoutPanelClass this2.
Proof.
  intros Hm1 Hm2 Heq. unfold outcome, _getFoldoutPanelClass, bind.
  rewrite (this_model_get_run _ _ _ Hm1), (this_model_get_run _ _ _ Hm2), Heq.
  switch_cases; reflexivity.
Qed.

(** C9. [_getFoldoutPanelClass] only reads: whether it returns a panel
    class or throws, the view and its model's attributes (collection_type
    and deleted among them) are afterwards what they were before. *)
Theorem C9_getFoldoutPanelClass_read_only (this : View) :
  after _getFoldoutPanelClass this = this.
Proof.
  unfold after. destruct (model this) as [m |] eqn:Hm.
  - unfold _getFoldoutPanelClass, bind.
    rewrite (this_model_get_run _ _ _ Hm).
    switch_cases; reflexivity.
  - now rewrite (getFoldoutPanelClass_no_model this Hm).
Qed.

(** C7. The delete button is made from options whose [disabled] is the
    model's deleted flag, so it is disabled exactly when the flag is
    true; its title is the (localised) message "Dataset collection is
    already deleted" when the flag is true and "Delete" when it is false,
    those very strings wherever the localisation leaves them as they
    are; in both cases its classes are "delete-btn" and its icon is
    "fa-times". *)
Theorem C7_renderDeleteButton_options
    (this : View) (m : Model) (deleted : bool) :
  model this = Some m ->
  get m "deleted" = VBool deleted ->
  exists options : ButtonOptions,
    outcome _renderDeleteButton this = Normal (faIconButton options)
    /\ disabled options = VBool deleted
    /\ (ToBoolean (disabled options) = true <-> deleted = true)
    /\ title options =
         _l (if deleted then "Dataset collection is already deleted"
             else "Delete")
    /\ ((forall msg : string, _l msg = msg) ->
        title options =
          if deleted then "Dataset collection is already deleted"
          else "Delete")
    /\ classes options = "delete-btn"
    /\ faIcon options = "fa-times".
Proof using _l Button faIconButton.
  intros Hm Hdel. unfold outcome.
  rewrite (renderDeleteButton_run _ _ Hm), Hdel. simpl.
  eexists. split; [reflexivity |]. simpl.
  split; [reflexivity |].
  split; [split; intros Hd; exact Hd |].
  split; [destruct deleted; reflexivity |].
  split; [| split; reflexivity].
  intros Hid. destruct deleted; apply Hid.
Qed.

(** C8. [toString] is total: on every view it returns, never throws,
    and the string is "HDCAListItemEdit(" then the model's own string and
    ")" when there is a model, "HDCAListItemEdit((no model))" when there
    is none. *)
Theorem C8_toString_total (this : View) :
  toString this =
    (this,
     Normal match model this with
            | Some m => "HDCAListItemEdit(" +:+ Model_toString m +:+ ")"
            | None => "HDCAListItemEdit((no model))"
            end).
Proof.
  unfold toString, this_model, bind, ret.
  destruct (model this); reflexivity.
Qed.

(** C5. [_renderPrimaryActions] returns the list the base class's
    [_renderPrimaryActions] produced with one element appended at the
    end, the delete button; the base class's actions come first, unchanged
    and in their order. *)
Theorem C5_renderPrimaryActions_appends_delete_button
    (this this' : View) (m : Model) (actions : list Button) :
  _super_renderPrimaryActions
    (after (let! this_string := toString in
            log (this_string +:+ "._renderPrimaryActions")) this)
    = (this', Normal actions) ->
  model this' = Some m ->
  exists button : Button,
    _renderDeleteButton this' = (this', Normal button)
    /\ _renderPrimaryActions this = (this', Normal (actions ++ [button])).
Proof.
  intros Hsuper Hm.
  eexists. split; [apply (renderDeleteButton_run _ _ Hm) |].
  revert Hsuper. unfold _renderPrimaryActions, after, bind.
  destruct (toString this) as [this0 [this_string | e]] eqn:Hstr.
  - simpl. intros Hsuper. rewrite Hsuper.
    now rewrite (renderDeleteButton_run _ _ Hm).
  - unfold toString, this_model, bind, ret in Hstr.
    destruct (model this); discriminate Hstr.
Qed.

(** *** Further properties of the view *)

(** X1. [_getFoldoutPanelClass] returns a panel class only for a view
    that has a model whose collection_type is the very string of that
    class's [case]; nothing else, no other string and no value of another
    type, selects a class. *)
Theorem X1_getFoldoutPanelClass_returns_only_for_its_case
    (this : View) (panel : DC_VIEW_EDIT.PanelClass) :
  outcome _getFoldoutPanelClass this = Normal panel ->
  exists (m : Model) (collection_type : string),
    model this = Some m
    /\ get m "collection_type" = VStr collection_type
    /\ (collection_type, panel) ∈ known_panel_classes.
Proof.
  unfold outcome. destruct (model this) as [m |] eqn:Hm.
  - unfold _getFoldoutPanelClass, bind.
    rewrite (this_model_get_run _ _ _ Hm).
    unfold known_panel_classes, ret, throw.
    repeat match goal with
    | |- context [strict_equals ?a ?b] =>
        let Heq := fresh "Heq" in
        destruct (strict_equals a b) eqn:Heq;
        [ apply strict_equals_true in Heq; simpl;
          intros [= <-]; eexists m, _;
          split; [reflexivity |]; split; [exact Heq |];
          repeat first [ apply list_elem_of_here | apply list_elem_of_further ]
        | ]
    end.
    simpl. discriminate.
  - rewrite (getFoldoutPanelClass_no_model this Hm). simpl. discriminate.
Qed.

(** X3. The [switch] compares without conversion: a collection_type that
    is not a string (the attribute missing, so [undefined]; [null]; a
    boolean; an integer number) always ends in the TypeError, whose message
    prints the value, and the view is left as it was. *)
Theorem X3_getFoldoutPanelClass_rejects_non_strings
    (this : View) (m : Model) :
  model this = Some m ->
  (forall s : string, get m "collection_type" <> VStr s) ->
  _getFoldoutPanelClass this =
    (this, Throw (TypeError ("Unknown collection_type: "
                             +:+ ToString (get m "collection_type"))))
  /\ (m !! "collection_type" = None ->
      outcome _getFoldoutPanelClass this =
        Throw (TypeError "Unknown collection_type: undefined")).
Proof.
  intros Hm Hnot.
  assert (Hrun : _getFoldoutPanelClass this =
    (this, Throw (TypeError ("Unknown collection_type: "
                             +:+ ToString (get m "collection_type"))))).
  { unfold _getFoldoutPanelClass, bind.
    rewrite (this_model_get_run _ _ _ Hm).
    repeat match goal with
    | |- context [strict_equals ?a (VStr ?s)] =>
        rewrite (proj2 (strict_equals_false a (VStr s)) (Hnot s))
    end.
    reflexivity. }
  split; [exact Hrun |].
  intros Hmissing. unfold outcome. rewrite Hrun.
  unfold get. rewrite Hmissing. reflexivity.
Qed.

(** X4. On a view that has no model, [_getFoldoutPanelClass] and
    [_renderDeleteButton] both throw a TypeError, from the read of
    [this.model.get], and leave the view as it was; only [toString] guards
    against the missing model and returns. *)
Theorem X4_methods_without_model (this : View) :
  model this = None ->
  (exists msg : string,
     _getFoldoutPanelClass this = (this, Throw (TypeError msg)))
  /\ (exists msg : string,
        _renderDeleteButton this = (this, Throw (TypeError msg)))
  /\ toString this = (this, Normal "HDCAListItemEdit((no model))").
Proof using _l Button faIconButton Model_toString.
  intros Hm. split; [| split].
  - eexists. apply (getFoldoutPanelClass_no_model this Hm).
  - eexists. unfold _renderDeleteButton, bind.
    rewrite (this_model_get_no_model _ _ Hm). reflexivity.
  - unfold toString, this_model, bind, ret. rewrite Hm. reflexivity.
Qed.

(** X5. [_renderPrimaryActions] returns only lists that end in the delete
    button: whenever it returns, the base method had returned, the view
    it left has a model, and the result is the base method's list followed
    by the button rendered on that view, one element longer. *)
Theorem X5_renderPrimaryActions_returns_only_with_button
    (this this' : View) (result : list Button) :
  _renderPrimaryActions this = (this', Normal result) ->
  exists (actions : list Button) (button : Button) (m : Model),
    _super_renderPrimaryActions
      (after (let! this_string := toString in
              log (this_string +:+ "._renderPrimaryActions")) this)
      = (this', Normal actions)
    /\ model this' = Some m
    /\ _renderDeleteButton this' = (this', Normal button)
    /\ result = actions ++ [button]
    /\ last result = Some button
    /\ length result = S (length actions).
Proof.
  rewrite renderPrimaryActions_after_log. unfold bind at 1 2.
  destruct (_super_renderPrimaryActions _) as [this1 [actions | e]];
    [| discriminate].
  destruct (model this1) as [m |] eqn:Hm.
  - rewrite (renderDeleteButton_run _ _ Hm). unfold ret, concat.
    intros [= <- <-].
    eexists actions, _, m.
    split; [reflexivity |]. split; [exact Hm |].
    split; [apply (renderDeleteButton_run _ _ Hm) |].
    split; [reflexivity |]. split.
    + apply last_snoc.
    + rewrite length_app. simpl. lia.
  - rewrite (renderDeleteButton_no_model _ Hm). discriminate.
Qed.

(** X6. An error of the base class's [_renderPrimaryActions] passes
    through the override unchanged: the same error is thrown, in the state
    the base method left, and no delete button is rendered. *)
Theorem X6_renderPrimaryActions_passes_base_error
    (this this' : View) (e : exn) :
  _super_renderPrimaryActions
    (after (let! this_string := toString in
            log (this_string +:+ "._renderPrimaryActions")) this)
    = (this', Throw e) ->
  _renderPrimaryActions this = (this', Throw e).
Proof.
  intros Hsuper. rewrite renderPrimaryActions_after_log.
  unfold bind at 1. now rewrite Hsuper.
Qed.

(** X7. When the base method returns but the view then has no model, the
    override throws a TypeError in place of returning the base method's
    list; what the base method did to the view stays. *)
Theorem X7_renderPrimaryActions_without_model
    (this this' : View) (actions : list Button) :
  _super_renderPrimaryActions
    (after (let! this_string := toString in
            log (this_string +:+ "._renderPrimaryActions")) this)
    = (this', Normal actions) ->
  model this' = None ->
  exists msg : string,
    _renderPrimaryActions this = (this', Throw (TypeError msg)).
Proof.
  intros Hsuper Hm. rewrite renderPrimaryActions_after_log.
  unfold bind at 1 2. rewrite Hsuper, (renderDeleteButton_no_model _ Hm).
  eexists. reflexivity.
Qed.

(** X8. Over a base method that leaves the view as it is, the override
    changes nothing but the log, to which it adds one message, the view's
    string followed by "._renderPrimaryActions"; the model is untouched,
    whether the call returns or throws. *)
Theorem X8_renderPrimaryActions_only_logs (this : View) :
  (forall s : View, after _super_renderPrimaryActions s = s) ->
  exists this_string : string,
    toString this = (this, Normal this_string)
    /\ after _renderPrimaryActions this =
         mkView (model this)
                (logged this ++ [this_string +:+ "._renderPrimaryActions"]).
Proof.
  intros Hbase. eexists. split.
  - unfold toString, this_model, bind, ret. reflexivity.
  - unfold after at 1. rewrite renderPrimaryActions_after_log.
    unfold bind at 1 2.
    match goal with
    | |- context [_super_renderPrimaryActions ?s] =>
        pose proof (Hbase s) as Hs; unfold after at 1 in Hs;
        destruct (_super_renderPrimaryActions s) as [this1 [actions | e]]
    end; simpl in Hs; subst this1; [| reflexivity].
    match goal with
    | |- context [_renderDeleteButton ?s] =>
        destruct (model s) as [m |] eqn:Hm;
        [ rewrite (renderDeleteButton_run s m Hm)
        | rewrite (renderDeleteButton_no_model s Hm) ]
    end; reflexivity.
Qed.

(** X9. Title and [disabled] never disagree, whatever the deleted
    attribute holds (a boolean, a number, a string, [null], or nothing):
    [disabled] is the attribute's value as it is, and, the localisation
    keeping the two messages apart, the title is the "already deleted"
    message exactly when [disabled] is truthy and the "Delete" message
    exactly when it is falsy.  A model with no deleted attribute gets an
    enabled "Delete" button whose [disabled] is [undefined]. *)
Theorem X9_renderDeleteButton_title_follows_disabled
    (this : View) (m : Model) :
  model this = Some m ->
  _l "Dataset collection is already deleted" <> _l "Delete" ->
  exists options : ButtonOptions,
    _renderDeleteButton this = (this, Normal (faIconButton options))
    /\ disabled options = get m "deleted"
    /\ (title options = _l "Dataset collection is already deleted"
        <-> ToBoolean (disabled options) = true)
    /\ (title options = _l "Delete"
        <-> ToBoolean (disabled options) = false)
    /\ (m !! "deleted" = None ->
        disabled options = VUndefined /\ title options = _l "Delete").
Proof using _l Button faIconButton.
  intros Hm Hapart. eexists. split; [apply (renderDeleteButton_run _ _ Hm) |].
  simpl. split; [reflexivity |].
  split; [| split].
  - destruct (ToBoolean (get m "deleted")); split; intros H;
      try reflexivity; try discriminate H.
    symmetry in H. contradiction.
  - destruct (ToBoolean (get m "deleted")); split; intros H;
      try reflexivity; try discriminate H.
    contradiction.
  - intros Hmissing. unfold get. rewrite Hmissing. split; reflexivity.
Qed.


End HDCAListItemEdit.

(** *** The karma configuration *)

(** When the mode is on: the variable is set, and not to the empty string. *)
Lemma single_pack_mode_truthy (env : Env) :
  ToBoolean (single_pack_mode env) =
    match env !! "GALAXY_TEST_AS_SINGLE_PACK" with
    | Some s => negb (String.eqb s "")
    | None => false
    end.
Proof.
  unfold single_pack_mode, process_env, js_or.
  destruct (env !! "GALAXY_TEST_AS_SINGLE_PACK") as [s |]; simpl; [| reflexivity].
  destruct (String.eqb s "") eqn:Hempty; simpl; rewrite ?Hempty; reflexivity.
Qed.

Section KarmaProperties.

Context {Plugin Entry : Type}.

(** C4. The [files] of the karma configuration are chosen by the
    environment variable GALAXY_TEST_AS_SINGLE_PACK: set to a truthy
    (non-empty) value, they are the single-pack list, the one pattern
    galaxy/scripts/qunit/test.js, followed by the CSS asset pattern;
    unset or falsy (empty), they are the separate-packs list followed by
    the same CSS asset pattern. *)
Theorem C4_files_selected_by_environment
    (env : Env) (required : WebpackConfig Plugin Entry) :
  (forall s : string,
     env !! "GALAXY_TEST_AS_SINGLE_PACK" = Some s -> s <> "" ->
     files (settings env required) =
       [ PatternObject {| pattern := "galaxy/scripts/qunit/test.js";
                          watched := false |};
         PatternString "galaxy/scripts/qunit/assets/*.css" ])
  /\ (env !! "GALAXY_TEST_AS_SINGLE_PACK" = None
      \/ env !! "GALAXY_TEST_AS_SINGLE_PACK" = Some "" ->
      files (settings env required) =
        TESTS_SEPARATE_PACKS
        ++ [ PatternString "galaxy/scripts/qunit/assets/*.css" ]).
Proof.
  unfold settings. simpl. rewrite single_pack_mode_truthy. split.
  - intros s Hs Hne. rewrite Hs.
    destruct (String.eqb_spec s ""); [contradiction | reflexivity].
  - intros [Hnone | Hempty]; [rewrite Hnone | rewrite Hempty]; reflexivity.
Qed.

(** X11. [single_pack_mode] returns [false] when the variable is unset
    or empty and otherwise the variable's own string, which is then not
    empty: the result is never [undefined], never the empty string and
    never [true], and any non-empty text, "0" and "false" too, turns the
    mode on. *)
Theorem X11_single_pack_mode_result (env : Env) :
  ((env !! "GALAXY_TEST_AS_SINGLE_PACK" = None
    \/ env !! "GALAXY_TEST_AS_SINGLE_PACK" = Some "")
   /\ single_pack_mode env = VBool false
   /\ ToBoolean (single_pack_mode env) = false)
  \/ (exists s : string,
        env !! "GALAXY_TEST_AS_SINGLE_PACK" = Some s
        /\ s <> ""
        /\ single_pack_mode env = VStr s
        /\ ToBoolean (single_pack_mode env) = true).
Proof.
  unfold single_pack_mode, process_env, js_or.
  destruct (env !! "GALAXY_TEST_AS_SINGLE_PACK") as [s |]; simpl.
  - destruct (String.eqb_spec s "") as [-> | Hne]; simpl.
    + left. auto.
    + right. exists s. repeat split; try assumption.
      now apply negb_true_iff, String.eqb_neq.
  - left. auto.
Qed.

(** X12. The configuration depends on the environment only through
    whether GALAXY_TEST_AS_SINGLE_PACK is set to a non-empty string: two
    environments that agree on that give the same settings, and the same
    call of [config.set], whatever the variable's text and whatever else is
    set. *)
Theorem X12_settings_depend_on_mode_only
    {Config : Type} (config_set : KarmaSettings Plugin Entry -> Config -> Config)
    (env1 env2 : Env) (required : WebpackConfig Plugin Entry) (config : Config) :
  ((exists s, env1 !! "GALAXY_TEST_AS_SINGLE_PACK" = Some s /\ s <> "")
   <-> (exists s, env2 !! "GALAXY_TEST_AS_SINGLE_PACK" = Some s /\ s <> "")) ->
  settings env1 required = settings env2 required
  /\ module_exports config_set env1 required config
     = module_exports config_set env2 required config.
Proof.
  intros Hagree.
  assert (Hmode : ToBoolean (single_pack_mode env1)
                  = ToBoolean (single_pack_mode env2)).
  { rewrite !single_pack_mode_truthy.
    destruct (env1 !! "GALAXY_TEST_AS_SINGLE_PACK") as [s1 |] eqn:H1;
    destruct (env2 !! "GALAXY_TEST_AS_SINGLE_PACK") as [s2 |] eqn:H2.
    - destruct (String.eqb_spec s1 "") as [-> | Hne1];
      destruct (String.eqb_spec s2 "") as [-> | Hne2]; try reflexivity.
      + destruct (proj2 Hagree) as [s [[= <-] Hs]]; [eauto | contradiction].
      + destruct (proj1 Hagree) as [s [[= <-] Hs]]; [eauto | contradiction].
    - destruct (String.eqb_spec s1 "") as [-> | Hne1]; [reflexivity |].
      destruct (proj1 Hagree) as [s [Hs _]]; [eauto | discriminate Hs].
    - destruct (String.eqb_spec s2 "") as [-> | Hne2]; [reflexivity |].
      destruct (proj2 Hagree) as [s [Hs _]]; [eauto | discriminate Hs].
    - reflexivity. }
  assert (Hsettings : settings env1 required = settings env2 required).
  { unfold settings. now rewrite Hmode. }
  split; [exact Hsettings |].
  unfold module_exports. now rewrite Hsettings.
Qed.

(** X13. In either mode the [files] list is one or eleven pattern objects,
    none of them watched, followed by the CSS pattern, which is the last
    element and the only bare string; no pattern occurs twice. *)
Theorem X13_files_shape (env : Env) (required : WebpackConfig Plugin Entry) :
  let fs := files (settings env required) in
  last fs = Some (PatternString "galaxy/scripts/qunit/assets/*.css")
  /\ Forall (fun e => entry_watched e = Some false) (take (length fs - 1) fs)
  /\ NoDup (map entry_pattern fs)
  /\ (length fs = 2 \/ length fs = 12).
Proof.
  unfold settings. simpl.
  destruct (ToBoolean (single_pack_mode env)).
  - split; [reflexivity |]. split; [repeat constructor |].
    split; [| left; reflexivity].
    apply (bool_decide_unpack _). vm_compute. reflexivity.
  - split; [reflexivity |]. split; [repeat constructor |].
    split; [| right; reflexivity].
    apply (bool_decide_unpack _). vm_compute. reflexivity.
Qed.

(** X14. The webpack configuration given to karma is the required one
    with its first plugin, and only that one, taken out, the others kept in
    their order: a required list of no plugins stays empty, without error.
    Its [entry] is the empty one whatever the required [entry] was. *)
Theorem X14_webpack_first_plugin_removed
    (env : Env) (required : WebpackConfig Plugin Entry) :
  let kept := wp_plugins (webpack (settings env required)) in
  wp_plugins required = take 1 (wp_plugins required) ++ kept
  /\ length kept = length (wp_plugins required) - 1
  /\ (forall (i : nat), kept !! i = wp_plugins required !! (S i))
  /\ wp_entry (webpack (settings env required)) = NoEntries.
Proof.
  simpl. split; [symmetry; apply take_drop |].
  split; [apply length_drop |].
  split; [| reflexivity].
  intros i. rewrite lookup_drop. reflexivity.
Qed.

End KarmaProperties.

(** C6. The separate-packs list holds exactly the eleven active test file
    patterns, in the tests directory and each with [watched] false, and
    none of the tests that are commented out (ui_tests.js, modal_tests.js,
    upload_dialog_tests.js, form_tests.js, masthead_tests.js). *)
Theorem C6_separate_packs_contents :
  map entry_pattern TESTS_SEPARATE_PACKS
    = map (fun name => tests_dir +:+ name) active_tests
  /\ length TESTS_SEPARATE_PACKS = 11
  /\ Forall (fun e => entry_watched e = Some false) TESTS_SEPARATE_PACKS
  /\ Forall (fun name =>
              Forall (fun e => ends_with name (entry_pattern e) = false)
                     TESTS_SEPARATE_PACKS)
            commented_out_tests.
Proof.
  repeat split.
  - repeat constructor.
  - repeat constructor.
Qed.

(** ** The methods on concrete views *)

Example getFoldoutPanelClass_untyped :
  _getFoldoutPanelClass (view_of {[ "deleted" := VBool false ]})
  = (view_of {[ "deleted" := VBool false ]},
     Throw (TypeError "Unknown collection_type: undefined")).
Proof. vm_compute. reflexivity. Qed.

Example getFoldoutPanelClass_number :
  outcome _getFoldoutPanelClass (view_of {[ "collection_type" := VNum (mkNumber (-12) I) ]})
  = Throw (TypeError "Unknown collection_type: -12").
Proof. vm_compute. reflexivity. Qed.

Example ToString_largest_safe_integer :
  ToString (VNum (mkNumber (2 ^ 53 - 1) I)) = "9007199254740991".
Proof. vm_compute. reflexivity. Qed.

Example getFoldoutPanelClass_case_sensitive :
  outcome _getFoldoutPanelClass (view_of {[ "collection_type" := VStr "List" ]})
  = Throw (TypeError "Unknown collection_type: List").
Proof. vm_compute. reflexivity. Qed.

Example getFoldoutPanelClass_without_model :
  outcome _getFoldoutPanelClass view_without_model
  = Throw (TypeError no_model_message).
Proof. reflexivity. Qed.

Example renderPrimaryActions_logs :
  logged (after (_renderPrimaryActions (fun s => s) ButtonOptions (fun o => o)
                   (fun _ => "HDCA(reads)") (ret []))
                (view_of a_live_pair))
  = [ "HDCAListItemEdit(HDCA(reads))._renderPrimaryActions" ].
Proof. vm_compute. reflexivity. Qed.

Example ends_with_yes :
  ends_with "graph.js" "galaxy/scripts/qunit/tests/graph.js" = true.
Proof. reflexivity. Qed.

Example ends_with_longer : ends_with "a/graph.js" "graph.js" = false.
Proof. reflexivity. Qed.

Example single_pack_mode_zero :
  single_pack_mode {[ "GALAXY_TEST_AS_SINGLE_PACK" := "0" ]} = VStr "0".
Proof. vm_compute. reflexivity. Qed.

Example single_pack_mode_unset : single_pack_mode ∅ = VBool false.
Proof. reflexivity. Qed.

(** ** The properties at concrete inputs *)

Lemma C1_getFoldoutPanelClass_known_witness :
  model (view_of a_list_of_pairs) = Some a_list_of_pairs
  /\ get a_list_of_pairs "collection_type" = VStr "list:paired"
  /\ outcome _getFoldoutPanelClass (view_of a_list_of_pairs)
     = Normal DC_VIEW_EDIT.ListOfPairsCollectionViewEdit.
Proof.
  split; [reflexivity |]. split; [vm_compute; reflexivity |].
  apply (C1_getFoldoutPanelClass_known (view_of a_list_of_pairs)
           a_list_of_pairs "list:paired").
  - reflexivity.
  - vm_compute; reflexivity.
  - apply (bool_decide_unpack _). vm_compute. reflexivity.
Defined.



Lemma C3_getFoldoutPanelClass_depends_on_collection_type_witness :
  get a_deleted_pair "collection_type" = get a_live_pair "collection_type"
  /\ get a_deleted_pair "deleted" <> get a_live_pair "deleted"
  /\ outcome _getFoldoutPanelClass (view_of a_deleted_pair)
     = outcome _getFoldoutPanelClass (mkView (Some a_live_pair) ["earlier"]).
Proof.
  split; [vm_compute; reflexivity |]. split; [vm_compute; discriminate |].
  apply (C3_getFoldoutPanelClass_depends_on_collection_type
           (view_of a_deleted_pair) (mkView (Some a_live_pair) ["earlier"])
           a_deleted_pair a_live_pair).
  - reflexivity.
  - reflexivity.
  - vm_compute; reflexivity.
Defined.

Lemma C5_renderPrimaryActions_appends_delete_button_witness :
  exists button : ButtonOptions,
    _renderDeleteButton (fun s => s) ButtonOptions (fun o => o)
      (mkView (Some a_live_pair)
              ["HDCAListItemEdit(HDCA(reads))._renderPrimaryActions"])
    = (mkView (Some a_live_pair)
              ["HDCAListItemEdit(HDCA(reads))._renderPrimaryActions"],
       Normal button)
    /\ _renderPrimaryActions (fun s => s) ButtonOptions (fun o => o)
         (fun _ => "HDCA(reads)") (ret two_actions) (view_of a_live_pair)
       = (mkView (Some a_live_pair)
                 ["HDCAListItemEdit(HDCA(reads))._renderPrimaryActions"],
          Normal (two_actions ++ [button])).
Proof.
  apply (C5_renderPrimaryActions_appends_delete_button
           (fun s => s) ButtonOptions (fun o => o) (fun _ => "HDCA(reads)")
           (ret two_actions) (view_of a_live_pair) _ a_live_pair two_actions).
  - vm_compute. reflexivity.
  - reflexivity.
Defined.

Lemma C7_renderDeleteButton_options_witness :
  exists options : ButtonOptions,
    outcome (_renderDeleteButton (fun s => s) ButtonOptions (fun o => o))
            (view_of a_deleted_pair) = Normal options
    /\ disabled options = VBool true
    /\ (ToBoolean (disabled options) = true <-> true = true)
    /\ title options = "Dataset collection is already deleted"
    /\ ((forall msg : string, msg = msg) ->
        title options = "Dataset collection is already deleted")
    /\ classes options = "delete-btn"
    /\ faIcon options = "fa-times".
Proof.
  apply (C7_renderDeleteButton_options (fun s => s) ButtonOptions (fun o => o)
           (view_of a_deleted_pair) a_deleted_pair true).
  - reflexivity.
  - vm_compute. reflexivity.
Defined.

Lemma C4_files_selected_by_environment_witness :
  files (settings {[ "GALAXY_TEST_AS_SINGLE_PACK" := "1" ]}
           (mkWebpackConfig (RequiredEntry "galaxy.js")
              [ "CommonsChunkPlugin"; "ProvidePlugin" ]))
  = [ PatternObject {| pattern := "galaxy/scripts/qunit/test.js";
                       watched := false |};
      PatternString "galaxy/scripts/qunit/assets/*.css" ].
Proof.
  apply (proj1 (C4_files_selected_by_environment
                  {[ "GALAXY_TEST_AS_SINGLE_PACK" := "1" ]}
                  (mkWebpackConfig (RequiredEntry "galaxy.js")
                     [ "CommonsChunkPlugin"; "ProvidePlugin" ])) "1").
  - vm_compute. reflexivity.
  - discriminate.
Defined.

(** ** The further properties at concrete inputs *)

Lemma X1_getFoldoutPanelClass_returns_only_for_its_case_witness :
  outcome _getFoldoutPanelClass (view_of a_list_of_pairs)
    = Normal DC_VIEW_EDIT.ListOfPairsCollectionViewEdit
  /\ exists (m : Model) (collection_type : string),
       model (view_of a_list_of_pairs) = Some m
       /\ get m "collection_type" = VStr collection_type
       /\ (collection_type, DC_VIEW_EDIT.ListOfPairsCollectionViewEdit)
            ∈ known_panel_classes.
Proof.
  split; [vm_compute; reflexivity |].
  apply (X1_getFoldoutPanelClass_returns_only_for_its_case
           (view_of a_list_of_pairs)).
  vm_compute. reflexivity.
Defined.

Lemma X3_getFoldoutPanelClass_rejects_non_strings_witness :
  _getFoldoutPanelClass (view_of a_bare_model) =
    (view_of a_bare_model,
     Throw (TypeError ("Unknown collection_type: "
                       +:+ ToString (get a_bare_model "collection_type"))))
  /\ (a_bare_model !! "collection_type" = None ->
      outcome _getFoldoutPanelClass (view_of a_bare_model) =
        Throw (TypeError "Unknown collection_type: undefined")).
Proof.
  apply (X3_getFoldoutPanelClass_rejects_non_strings
           (view_of a_bare_model) a_bare_model).
  - reflexivity.
  - intros s. vm_compute. discriminate.
Defined.

Lemma X4_methods_without_model_witness :
  (exists msg : string,
     _getFoldoutPanelClass view_without_model
     = (view_without_model, Throw (TypeError msg)))
  /\ (exists msg : string,
        _renderDeleteButton (fun s => s) ButtonOptions (fun o => o)
          view_without_model
        = (view_without_model, Throw (TypeError msg)))
  /\ toString (fun _ => "HDCA(reads)") view_without_model
     = (view_without_model, Normal "HDCAListItemEdit((no model))").
Proof.
  apply (X4_methods_without_model (fun s => s) ButtonOptions (fun o => o)
           (fun _ => "HDCA(reads)") view_without_model).
  reflexivity.
Defined.

Lemma X5_renderPrimaryActions_returns_only_with_button_witness :
  exists (actions : list ButtonOptions) (button : ButtonOptions) (m : Model),
    ret two_actions
      (after (let! this_string := toString (fun _ => "HDCA(reads)") in
              log (this_string +:+ "._renderPrimaryActions"))
             (view_of a_live_pair))
    = (mkView (Some a_live_pair)
              ["HDCAListItemEdit(HDCA(reads))._renderPrimaryActions"],
       Normal actions)
    /\ model (mkView (Some a_live_pair)
                ["HDCAListItemEdit(HDCA(reads))._renderPrimaryActions"])
       = Some m
    /\ _renderDeleteButton (fun s => s) ButtonOptions (fun o => o)
         (mkView (Some a_live_pair)
                 ["HDCAListItemEdit(HDCA(reads))._renderPrimaryActions"])
       = (mkView (Some a_live_pair)
                 ["HDCAListItemEdit(HDCA(reads))._renderPrimaryActions"],
          Normal button)
    /\ two_actions ++ [a_delete_button] = actions ++ [button]
    /\ last (two_actions ++ [a_delete_button]) = Some button
    /\ length (two_actions ++ [a_delete_button]) = S (length actions).
Proof.
  apply (X5_renderPrimaryActions_returns_only_with_button
           (fun s => s) ButtonOptions (fun o => o) (fun _ => "HDCA(reads)")
           (ret two_actions) (view_of a_live_pair)).
  vm_compute. reflexivity.
Defined.

Lemma X6_renderPrimaryActions_passes_base_error_witness :
  _renderPrimaryActions (fun s => s) ButtonOptions (fun o => o)
    (fun _ => "HDCA(reads)") a_failing_base (view_of a_live_pair)
  = (mkView (Some a_live_pair)
            ["HDCAListItemEdit(HDCA(reads))._renderPrimaryActions"],
     Throw (TypeError "base failed")).
Proof.
  apply (X6_renderPrimaryActions_passes_base_error
           (fun s => s) ButtonOptions (fun o => o) (fun _ => "HDCA(reads)")
           a_failing_base (view_of a_live_pair)).
  vm_compute. reflexivity.
Defined.

Lemma X7_renderPrimaryActions_without_model_witness :
  exists msg : string,
    _renderPrimaryActions (fun s => s) ButtonOptions (fun o => o)
      (fun _ => "HDCA(reads)") a_base_dropping_the_model (view_of a_live_pair)
    = (mkView None ["HDCAListItemEdit(HDCA(reads))._renderPrimaryActions"],
       Throw (TypeError msg)).
Proof.
  apply (X7_renderPrimaryActions_without_model
           (fun s => s) ButtonOptions (fun o => o) (fun _ => "HDCA(reads)")
           a_base_dropping_the_model (view_of a_live_pair) _ two_actions).
  - vm_compute. reflexivity.
  - reflexivity.
Defined.

Lemma X8_renderPrimaryActions_only_logs_witness :
  exists this_string : string,
    toString (fun _ => "HDCA(reads)") (view_of a_live_pair)
    = (view_of a_live_pair, Normal this_string)
    /\ after (_renderPrimaryActions (fun s => s) ButtonOptions (fun o => o)
                (fun _ => "HDCA(reads)") (ret two_actions))
             (view_of a_live_pair)
       = mkView (model (view_of a_live_pair))
                (logged (view_of a_live_pair)
                 ++ [this_string +:+ "._renderPrimaryActions"]).
Proof.
  apply (X8_renderPrimaryActions_only_logs
           (fun s => s) ButtonOptions (fun o => o) (fun _ => "HDCA(reads)")
           (ret two_actions) (view_of a_live_pair)).
  intros s. reflexivity.
Defined.

Lemma X9_renderDeleteButton_title_follows_disabled_witness :
  exists options : ButtonOptions,
    _renderDeleteButton (fun s => s) ButtonOptions (fun o => o)
      (view_of a_bare_model)
    = (view_of a_bare_model, Normal options)
    /\ disabled options = get a_bare_model "deleted"
    /\ (title options = "Dataset collection is already deleted"
        <-> ToBoolean (disabled options) = true)
    /\ (title options = "Delete" <-> ToBoolean (disabled options) = false)
    /\ (a_bare_model !! "deleted" = None ->
        disabled options = VUndefined /\ title options = "Delete").
Proof.
  apply (X9_renderDeleteButton_title_follows_disabled
           (fun s => s) ButtonOptions (fun o => o)
           (view_of a_bare_model) a_bare_model).
  - reflexivity.
  - discriminate.
Defined.


Lemma X12_settings_depend_on_mode_only_witness :
  settings env_single_1 a_webpack_config
    = settings env_single_false a_webpack_config
  /\ module_exports (fun k config => k :: config)
       env_single_1 a_webpack_config []
     = module_exports (fun k config => k :: config)
         env_single_false a_webpack_config [].
Proof.
  apply (X12_settings_depend_on_mode_only (fun k config => k :: config)
           env_single_1 env_single_false a_webpack_config []).
  split; intros _.
  - exists "false". split; [vm_compute; reflexivity | discriminate].
  - exists "1". split; [vm_compute; reflexivity | discriminate].
Defined.
